(** * tibber/response_handler.py: classification of one API response

    A shallow embedding of [extract_error_details] and
    [extract_response_data], together with the Python operations they rely
    on (truthiness, subscripting, [dict.get], the [in] operator, [str]),
    over values as [json.loads] produces them.  The calls to the logger
    change no outcome and are left out. *)

From Stdlib Require Import String Ascii ZArith List Bool Lia DecimalString.
Import ListNotations.
Local Open Scope string_scope.
Local Open Scope Z_scope.

(** ** Python values and operations *)

Module Py.

(** A Python value as [json.loads] builds it.  Objects are kept as association lists in
    which the first binding of a key is the one a lookup sees.  Numbers
    are integers: the handler never computes with a number, it only tests
    one for truth and fails to subscript or search it. *)
#[warnings="-register-all"] Inductive value : Type :=
| JNull
| JBool (b : bool)
| JNum (n : Z)
| JStr (s : string)
| JArr (items : list value)
| JObj (fields : list (string * value)).

Definition dict : Type := list (string * value).

(** Built-in exceptions the handler neither raises on purpose nor catches.
    [OtherException] stands for whatever [response.json()] raises besides
    [JSONDecodeError]. *)
Inductive builtin_exn : Type :=
| AttributeError
| TypeError
| KeyError
| IndexError
| OtherException.

(** [bool(v)] *)
Definition truthy (v : value) : bool :=
  match v with
  | JNull => false
  | JBool b => b
  | JNum n => negb (n =? 0)
  | JStr s => negb (s =? "")%string
  | JArr items => match items with [] => false | _ :: _ => true end
  | JObj fields => match fields with [] => false | _ :: _ => true end
  end.

(** [d.get(key)] on a [dict] *)
Fixpoint lookup (key : string) (d : dict) : option value :=
  match d with
  | [] => None
  | (k, v) :: rest => if (k =? key)%string then Some v else lookup key rest
  end.

(** [d.get(key, default)] on a [dict] *)
Definition dict_get (d : dict) (key : string) (default : value) : value :=
  match lookup key d with
  | Some v => v
  | None => default
  end.

(** [v == s] for a [str] literal [s] *)
Definition eq_str (v : value) (s : string) : bool :=
  match v with
  | JStr t => (t =? s)%string
  | _ => false
  end.

(** [needle in hay] on two [str] *)
Fixpoint str_contains (needle hay : string) : bool :=
  String.prefix needle hay ||
  match hay with
  | EmptyString => false
  | String _ rest => str_contains needle rest
  end.

(** [x in codes] on a list of status codes *)
Definition in_codes (x : Z) (codes : list Z) : bool :=
  existsb (Z.eqb x) codes.

(** ** A rendering of [repr] for the examples

    Exact for integers, [None], booleans and for text made of printable
    ASCII characters; other characters are left as they are, where CPython
    writes an escape. *)

Definition dquote : ascii := "034"%char.

Definition repr_quote (s : string) : ascii :=
  if str_contains "'" s && negb (str_contains (String dquote "") s) then dquote else "'"%char.

Fixpoint repr_escape (q : ascii) (s : string) : string :=
  match s with
  | EmptyString => EmptyString
  | String c rest =>
      if (c =? "\")%char || (c =? q)%char
      then String "\" (String c (repr_escape q rest))
      else String c (repr_escape q rest)
  end.

Definition repr_str (s : string) : string :=
  let q := repr_quote s in
  String q (repr_escape q s ++ String q EmptyString).

Fixpoint join (sep : string) (parts : list string) : string :=
  match parts with
  | [] => ""
  | [p] => p
  | p :: rest => p ++ sep ++ join sep rest
  end.

Fixpoint repr_ascii (v : value) : string :=
  match v with
  | JNull => "None"
  | JBool true => "True"
  | JBool false => "False"
  | JNum n => NilZero.string_of_int (Z.to_int n)
  | JStr s => repr_str s
  | JArr items => "[" ++ join ", " (map repr_ascii items) ++ "]"
  | JObj fields =>
      "{" ++ join ", " (map (fun kv => repr_str (fst kv) ++ ": " ++ repr_ascii (snd kv)) fields)
          ++ "}"
  end.

End Py.
Import Py.

(** ** Exceptions and results *)

(** Modelled from the spec: tibber/exceptions.py is not among the sources.
    Section 3 of the specification gives the four failures one shape, a
    status, a message and a code; the handler passes the message and the
    code on as it extracted them, so both are Python values here. *)
Inductive exn : Type :=
| FatalHttpExceptionError (status : Z) (message extension_code : value)
| InvalidLoginError (status : Z) (message extension_code : value)
| NotForDemoUserError (status : Z) (message extension_code : value)
| RetryableHttpExceptionError (status : Z) (message extension_code : value)
| Builtin (e : builtin_exn).

Inductive result (A : Type) : Type :=
| Return (a : A)
| Raise (e : exn).

Arguments Return {A} a.
Arguments Raise {A} e.

Definition bind {A B : Type} (c : result A) (k : A -> result B) : result B :=
  match c with
  | Return a => k a
  | Raise e => Raise e
  end.

Notation "x <- c ;; k" := (bind c (fun x => k))
  (at level 61, c at next level, right associativity).
Notation "' p <- c ;; k" := (bind c (fun x => match x with p => k end))
  (at level 61, p pattern, c at next level, right associativity).

(** [v[0]] *)
Definition getitem0 (v : value) : result value :=
  match v with
  | JArr (x :: _) => Return x
  | JArr [] => Raise (Builtin IndexError)
  | JStr (String c _) => Return (JStr (String c EmptyString))
  | JStr EmptyString => Raise (Builtin IndexError)
  | JObj _ => Raise (Builtin KeyError)
  | JNull | JBool _ | JNum _ => Raise (Builtin TypeError)
  end.

(** [v.get(key, default)]: only a [dict] has the method *)
Definition get (v : value) (key : string) (default : value) : result value :=
  match v with
  | JObj fields => Return (dict_get fields key default)
  | _ => Raise (Builtin AttributeError)
  end.

(** [needle in v] for a [str] literal [needle] *)
Definition contains (needle : string) (v : value) : result bool :=
  match v with
  | JStr hay => Return (str_contains needle hay)
  | JArr items => Return (existsb (fun x => eq_str x needle) items)
  | JObj fields => Return (existsb (fun kv => (fst kv =? needle)%string) fields)
  | JNull | JBool _ | JNum _ => Raise (Builtin TypeError)
  end.

(** ** The response and the constants *)

(** What [await response.json()] does once the handler calls it: it hands
    back the decoded body, raises [JSONDecodeError] (kept with its [str]),
    or raises something else, which the handler does not catch. *)
Inductive json_outcome : Type :=
| Decoded (result : value)
| JSONDecodeError (err : string)
| JsonRaises (e : builtin_exn).

(** The part of aiohttp's [ClientResponse] the handler reads.
    [content_str] is [str(response.content)]. *)
Record ClientResponse : Type := {
  status : Z;
  content_type : string;
  content_str : string;
  json : json_outcome
}.

(** tibber/const.py is not among the sources: the four names
    response_handler.py imports from it are parameters of the embedding. *)
Record Const : Type := {
  API_ERR_CODE_UNAUTH : string;
  API_ERR_CODE_UNKNOWN : string;
  HTTP_CODES_FATAL : list Z;
  HTTP_CODES_RETRIABLE : list Z
}.

(** [HTTPStatus.OK] *)
Definition HTTPStatus_OK : Z := 200.

(** ** The handler *)

Section Handler.

(** [repr] of a value that is not a [str]; no property below depends on
    how it renders. *)
Variable py_repr : value -> string.
Variable K : Const.

(** [str(v)], also what an f-string puts in place of [{v}] *)
Definition py_str (v : value) : string :=
  match v with
  | JStr s => s
  | _ => py_repr v
  end.

(** Lines 26-36. *)
Definition extract_error_details (errors : value) (default_message : string)
  : result (value * value) :=
  if negb (truthy errors) then
    Return (JStr (API_ERR_CODE_UNKNOWN K), JStr default_message)
  else
    error <- getitem0 errors ;;
    extensions <- get error "extensions" (JObj []) ;;
    code <- get extensions "code" (JStr (API_ERR_CODE_UNKNOWN K)) ;;
    message <- get error "message" (JStr default_message) ;;
    Return (code, message).

(** Lines 89-107, where control arrives when the status is not 200 and
    when the two special cases of a 200 response did not apply. *)
Definition raise_by_status (response : ClientResponse) (errors : value) : result dict :=
  if in_codes (status response) (HTTP_CODES_RETRIABLE K) then
    '(error_code, error_message) <- extract_error_details errors (content_str response) ;;
    Raise (RetryableHttpExceptionError (status response) error_message error_code)
  else if in_codes (status response) (HTTP_CODES_FATAL K) then
    '(error_code, error_message) <- extract_error_details errors "request failed" ;;
    if eq_str error_code (API_ERR_CODE_UNAUTH K) then
      Raise (InvalidLoginError (status response) error_message error_code)
    else
      Raise (FatalHttpExceptionError (status response) error_message error_code)
  else
    '(error_code, error_message) <- extract_error_details errors "N/A" ;;
    Raise (FatalHttpExceptionError (status response)
             (JStr ("Unhandled error: " ++ py_str error_message)) error_code).

(** Lines 39-107. *)
Definition extract_response_data (response : ClientResponse) : result dict :=
  if negb (content_type response =? "application/json")%string then
    Raise (FatalHttpExceptionError (status response)
             (JStr ("Unexpected content type: " ++ content_type response))
             (JStr (API_ERR_CODE_UNKNOWN K)))
  else
    match json response with
    | JSONDecodeError err =>
        Raise (FatalHttpExceptionError (status response)
                 (JStr ("Failed to parse response: " ++ err))
                 (JStr (API_ERR_CODE_UNKNOWN K)))
    | JsonRaises e => Raise (Builtin e)
    | Decoded (JObj result) =>
        let errors := dict_get result "errors" (JArr []) in
        if status response =? HTTPStatus_OK then
          if negb (truthy errors) then Return result
          else
            '(error_code, error_message) <- extract_error_details errors (content_str response) ;;
            if eq_str error_code "UNAUTHENTICATED" then
              Raise (InvalidLoginError (status response) error_message error_code)
            else
              demo <- contains "demo user" error_message ;;
              if eq_str error_code "INTERNAL_SERVER_ERROR" && demo then
                Raise (NotForDemoUserError (status response) error_message error_code)
              else raise_by_status response errors
        else raise_by_status response errors
    | Decoded result =>
        Raise (FatalHttpExceptionError (status response)
                 (JStr ("Unexpected response: " ++ py_str result))
                 (JStr (API_ERR_CODE_UNKNOWN K)))
    end.

End Handler.

(** ** Vocabulary of the specification *)

(** [needle] occurs in [hay] as a contiguous run of characters. *)
Definition Substring (needle hay : string) : Prop :=
  exists pre post, hay = pre ++ needle ++ post.

(** "the entry's extension code if present" *)
Definition entry_code (entry : value) : option value :=
  match entry with
  | JObj fields =>
      match lookup "extensions" fields with
      | Some (JObj ext) => lookup "code" ext
      | _ => None
      end
  | _ => None
  end.

(** "the entry's message if present" *)
Definition entry_message (entry : value) : option value :=
  match entry with
  | JObj fields => lookup "message" fields
  | _ => None
  end.

Definition or_default (o : option value) (default : value) : value :=
  match o with
  | Some v => v
  | None => default
  end.

(** What the specification's ErrorExtractor returns for a non-empty list:
    code and message of the first entry, each with its fallback. *)
Definition first_entry_details (K : Const) (entry : value) (default_message : string)
  : value * value :=
  (or_default (entry_code entry) (JStr (API_ERR_CODE_UNKNOWN K)),
   or_default (entry_message entry) (JStr default_message)).

Definition absent_or (p : value -> bool) (o : option value) : bool :=
  match o with
  | Some v => p v
  | None => true
  end.

Definition is_str (v : value) : bool :=
  match v with JStr _ => true | _ => false end.

Definition is_dict (v : value) : bool :=
  match v with JObj _ => true | _ => false end.

(** An entry as the annotations of [extract_error_details] type it: a
    [dict] whose [extensions], when there are some, are a [dict]. *)
Definition dict_entry (entry : value) : bool :=
  match entry with
  | JObj fields => absent_or is_dict (lookup "extensions" fields)
  | _ => false
  end.

(** An ErrorEntry of the data model: a mapping whose [message], when
    there is one, is text, and whose [extensions], when there are some,
    are a mapping in which [code], when there is one, is text. *)
Definition error_entry (entry : value) : bool :=
  match entry with
  | JObj fields =>
      absent_or is_str (lookup "message" fields) &&
      absent_or (fun ext => match ext with
                            | JObj e => absent_or is_str (lookup "code" e)
                            | _ => false
                            end) (lookup "extensions" fields)
  | _ => false
  end.

(** A value of the declared type of [errors], [list[dict[str, Any]]],
    with entries as the data model has them. *)
Definition error_list (errors : value) : bool :=
  match errors with
  | JArr items => forallb error_entry items
  | _ => false
  end.

(** A value of that declared type with entries as the annotations alone
    type them. *)
Definition dict_list (errors : value) : bool :=
  match errors with
  | JArr items => forallb dict_entry items
  | _ => false
  end.

(** A response whose body accessor decodes or raises [JSONDecodeError],
    and whose decoded mapping carries a well-formed error list. *)
Definition well_formed (response : ClientResponse) : Prop :=
  match json response with
  | Decoded (JObj result) => error_list (dict_get result "errors" (JArr [])) = true
  | Decoded _ => True
  | JSONDecodeError _ => True
  | JsonRaises _ => False
  end.

(** The exit is a returned payload or one of the four classified failures. *)
Definition classified {A : Type} (r : result A) : Prop :=
  match r with
  | Raise (Builtin _) => False
  | _ => True
  end.

(** The status a classified failure carries. *)
Definition exn_status (e : exn) : option Z :=
  match e with
  | FatalHttpExceptionError s _ _
  | InvalidLoginError s _ _
  | NotForDemoUserError s _ _
  | RetryableHttpExceptionError s _ _ => Some s
  | Builtin _ => None
  end.

(** The two special cases of a 200 response, on the details extracted
    from the first entry. *)
Definition ok_path_catches (code message : value) : Prop :=
  code = JStr "UNAUTHENTICATED" \/
  (code = JStr "INTERNAL_SERVER_ERROR" /\
   exists text, message = JStr text /\ Substring "demo user" text).

(** ** Concrete constants and responses *)

(** Modelled from the spec: tibber/const.py is not among the sources.  The
    status codes are the examples of the policy table in Section 6; the
    specification names the two sentinels without giving their text, so
    the strings here are stand-ins, distinct from each other and from the
    literal [UNAUTHENTICATED] as that section asks. *)
Definition const_example : Const := {|
  API_ERR_CODE_UNAUTH := "UNAUTHORIZED";
  API_ERR_CODE_UNKNOWN := "UNKNOWN";
  HTTP_CODES_FATAL := [400; 401; 403; 404];
  HTTP_CODES_RETRIABLE := [429; 502; 503; 504]
|}.

Definition error_with (message code : string) : value :=
  JObj [("message", JStr message); ("extensions", JObj [("code", JStr code)])].

Definition json_response (st : Z) (body : value) : ClientResponse :=
  {| status := st; content_type := "application/json";
     content_str := "<StreamReader>"; json := Decoded body |}.

(** status 401, body [{}] *)
Definition resp_401_empty : ClientResponse := json_response 401 (JObj []).

(** status 418, body [{}] *)
Definition resp_418_empty : ClientResponse := json_response 418 (JObj []).

(** status 200, body [{"data": {"x": 1}}] *)
Definition resp_200_data : ClientResponse :=
  json_response 200 (JObj [("data", JObj [("x", JNum 1)])]).

(** status 200, one error: no auth / UNAUTHENTICATED *)
Definition resp_200_unauthenticated : ClientResponse :=
  json_response 200 (JObj [("errors", JArr [error_with "no auth" "UNAUTHENTICATED"])]).

(** status 200, one error: a demo-user refusal / INTERNAL_SERVER_ERROR *)
Definition resp_200_demo : ClientResponse :=
  json_response 200
    (JObj [("errors", JArr [error_with "not allowed for demo user" "INTERNAL_SERVER_ERROR"])]).

(** status 429, body [{"errors": [{"message": "rate limited"}]}] *)
Definition resp_429_rate_limited : ClientResponse :=
  json_response 429 (JObj [("errors", JArr [JObj [("message", JStr "rate limited")]])]).

(** status 401, one error carrying the unauthorized sentinel *)
Definition resp_401_unauthorized : ClientResponse :=
  json_response 401 (JObj [("errors", JArr [error_with "bad token" "UNAUTHORIZED"])]).

(** A gateway's 502 page: HTML, no JSON to decode. *)
Definition resp_502_html : ClientResponse :=
  {| status := 502; content_type := "text/html";
     content_str := "<StreamReader>"; json := JSONDecodeError "Expecting value: line 1 column 1 (char 0)" |}.

(** status 418 with an HTML body *)
Definition resp_418_html : ClientResponse :=
  {| status := 418; content_type := "text/html";
     content_str := "<StreamReader>"; json := JSONDecodeError "Expecting value: line 1 column 1 (char 0)" |}.

(** The body of [resp_401_unauthorized] served under the GraphQL-over-HTTP
    media type instead of application/json. *)
Definition resp_401_graphql_type : ClientResponse :=
  {| status := 401; content_type := "application/graphql-response+json";
     content_str := "<StreamReader>"; json := json resp_401_unauthorized |}.

(** The body of [resp_200_demo] under that media type. *)
Definition resp_200_demo_graphql_type : ClientResponse :=
  {| status := 200; content_type := "application/graphql-response+json";
     content_str := "<StreamReader>"; json := json resp_200_demo |}.



(** ** Further vocabulary and responses *)

(** [f] applied to what a computation returns; a raise is passed on. *)
Definition result_map {A B : Type} (f : A -> B) (r : result A) : result B :=
  match r with
  | Return a => Return (f a)
  | Raise e => Raise e
  end.

(** The values the [in] operator cannot search: [None], booleans, numbers. *)
Definition unsearchable (v : value) : bool :=
  match v with
  | JNull | JBool _ | JNum _ => true
  | JStr _ | JArr _ | JObj _ => false
  end.

(** Message and code of a failure when both are text. *)
Definition exn_text (e : exn) : option (string * string) :=
  match e with
  | FatalHttpExceptionError _ (JStr m) (JStr c)
  | InvalidLoginError _ (JStr m) (JStr c)
  | NotForDemoUserError _ (JStr m) (JStr c)
  | RetryableHttpExceptionError _ (JStr m) (JStr c) => Some (m, c)
  | _ => None
  end.

(** status 200, body [{"data": null, "errors": null}] *)
Definition resp_200_errors_null : ClientResponse :=
  json_response 200 (JObj [("data", JNull); ("errors", JNull)]).

(** status 200, one error whose message is [null] and whose code is BAD_USER_INPUT *)
Definition resp_200_message_null : ClientResponse :=
  json_response 200
    (JObj [("errors",
            JArr [JObj [("message", JNull);
                        ("extensions", JObj [("code", JStr "BAD_USER_INPUT")])]])]).

(** status 503, body [{}] *)
Definition resp_503_empty : ClientResponse := json_response 503 (JObj []).

(** status 404, body [{}] *)
Definition resp_404_empty : ClientResponse := json_response 404 (JObj []).


(** ** Facts about the Python operations *)

Lemma prefix_append (needle hay : string) :
  String.prefix needle hay = true <-> exists post, hay = needle ++ post.
Proof.
  revert hay. induction needle as [|c needle IH]; intros hay.
  - split; [intros _; now exists hay | intros _; now destruct hay].
  - destruct hay as [|d hay]; simpl.
    + split; [discriminate | intros [post H]; discriminate].
    + destruct (Ascii.ascii_dec c d) as [Hcd|Hcd].
      * subst d. rewrite IH. split; intros [post H]; exists post.
        -- now rewrite H.
        -- now injection H.
      * split; [discriminate | intros [post H]; injection H; congruence].
Qed.

Lemma str_contains_Substring (needle hay : string) :
  str_contains needle hay = true <-> Substring needle hay.
Proof.
  unfold Substring. induction hay as [|d hay IH].
  - cbn [str_contains]. rewrite orb_false_r, prefix_append. split.
    + intros [post H]. now exists "", post.
    + intros [pre [post H]]. destruct pre as [|x pre]; [now exists post | discriminate].
  - cbn [str_contains]. rewrite orb_true_iff, prefix_append, IH. split.
    + intros [[post H] | [pre [post H]]].
      * now exists "", post.
      * exists (String d pre), post. simpl. now rewrite H.
    + intros [pre [post H]]. destruct pre as [|x pre].
      * left. now exists post.
      * right. exists pre, post. simpl in H. now injection H.
Qed.

Lemma not_contains_not_Substring (needle hay : string) :
  str_contains needle hay = false <-> ~ Substring needle hay.
Proof.
  rewrite <- str_contains_Substring. destruct (str_contains needle hay); split; congruence.
Qed.

Lemma in_codes_In (x : Z) (codes : list Z) : in_codes x codes = true <-> In x codes.
Proof.
  unfold in_codes. rewrite existsb_exists. split.
  - intros [y [Hy Heq]]. apply Z.eqb_eq in Heq. now subst.
  - intros H. exists x. split; [assumption | apply Z.eqb_refl].
Qed.

Lemma not_in_codes (x : Z) (codes : list Z) : ~ In x codes -> in_codes x codes = false.
Proof.
  intros H. destruct (in_codes x codes) eqn:E; [|reflexivity].
  apply in_codes_In in E. contradiction.
Qed.

Lemma eq_str_true (v : value) (s : string) : eq_str v s = true <-> v = JStr s.
Proof.
  destruct v; simpl; try (split; [discriminate | intros H; discriminate]).
  rewrite String.eqb_eq. split; [now intros -> | now intros [= ->]].
Qed.

Lemma eq_str_false (v : value) (s : string) : v <> JStr s -> eq_str v s = false.
Proof.
  intros H. destruct (eq_str v s) eqn:E; [|reflexivity].
  apply eq_str_true in E. contradiction.
Qed.

(** ** Facts about the handler *)

Section Properties.

Variable py_repr : value -> string.
Variable K : Const.

Lemma extract_error_details_nil (d : string) :
  extract_error_details K (JArr []) d = Return (JStr (API_ERR_CODE_UNKNOWN K), JStr d).
Proof. reflexivity. Qed.

(** The extraction reads the first entry and nothing else of the list. *)
Lemma extract_error_details_head (e : value) (rest : list value) (d : string) :
  extract_error_details K (JArr (e :: rest)) d =
  (extensions <- get e "extensions" (JObj []) ;;
   code <- get extensions "code" (JStr (API_ERR_CODE_UNKNOWN K)) ;;
   message <- get e "message" (JStr d) ;;
   Return (code, message)).
Proof. reflexivity. Qed.

Lemma extract_error_details_dict_entry (e : value) (rest : list value) (d : string) :
  dict_entry e = true ->
  extract_error_details K (JArr (e :: rest)) d = Return (first_entry_details K e d).
Proof.
  intros He. rewrite extract_error_details_head.
  destruct e as [| | | | |fields]; try discriminate.
  unfold first_entry_details, entry_code, entry_message. simpl in *.
  unfold dict_get at 1. destruct (lookup "extensions" fields) as [ext|]; simpl in *.
  - destruct ext; try discriminate. reflexivity.
  - reflexivity.
Qed.

Lemma error_entry_dict_entry (e : value) : error_entry e = true -> dict_entry e = true.
Proof.
  destruct e as [| | | | |fields]; try discriminate. simpl.
  intros He. apply andb_true_iff in He as [_ Hext].
  destruct (lookup "extensions" fields) as [ext|]; [|reflexivity].
  simpl in *. now destruct ext.
Qed.

Lemma extract_error_details_entry (e : value) (rest : list value) (d : string) :
  error_entry e = true ->
  extract_error_details K (JArr (e :: rest)) d = Return (first_entry_details K e d).
Proof.
  intros He. now apply extract_error_details_dict_entry, error_entry_dict_entry.
Qed.

Lemma entry_message_is_str (e : value) (d : string) :
  error_entry e = true -> exists text, or_default (entry_message e) (JStr d) = JStr text.
Proof.
  destruct e as [| | | | |fields]; try discriminate. simpl.
  intros He. apply andb_true_iff in He as [Hm _].
  destruct (lookup "message" fields) as [m|]; simpl in *.
  - destruct m; try discriminate. eauto.
  - eauto.
Qed.

Lemma error_list_cases (errors : value) :
  error_list errors = true ->
  errors = JArr [] \/
  exists e rest, errors = JArr (e :: rest) /\ error_entry e = true.
Proof.
  destruct errors as [| | | |items|]; try discriminate.
  destruct items as [|e rest]; simpl.
  - now left.
  - intros H. apply andb_true_iff in H as [He _]. right. eauto.
Qed.

Lemma extract_error_details_returns_dict (errors : value) (d : string) :
  dict_list errors = true ->
  exists code message, extract_error_details K errors d = Return (code, message).
Proof.
  destruct errors as [| | | |items|]; try discriminate.
  destruct items as [|e rest]; simpl.
  - intros _. eexists _, _. apply extract_error_details_nil.
  - intros H. apply andb_true_iff in H as [He _].
    rewrite (extract_error_details_dict_entry _ _ _ He).
    eexists _, _. reflexivity.
Qed.

(** On a well-formed error list the extraction returns, whatever the
    default message. *)
Lemma extract_error_details_returns (errors : value) (d : string) :
  error_list errors = true ->
  exists code text, extract_error_details K errors d = Return (code, JStr text).
Proof.
  intros H. destruct (error_list_cases _ H) as [-> | [e [rest [-> He]]]].
  - eexists _, _. apply extract_error_details_nil.
  - rewrite (extract_error_details_entry _ _ _ He). unfold first_entry_details.
    destruct (entry_message_is_str e d He) as [text ->]. eauto.
Qed.

(** Past the two gates the handler looks at the status and the errors. *)
Lemma extract_response_data_decoded (response : ClientResponse) (result : dict) :
  content_type response = "application/json" ->
  json response = Decoded (JObj result) ->
  extract_response_data py_repr K response =
  let errors := dict_get result "errors" (JArr []) in
  if status response =? HTTPStatus_OK then
    if negb (truthy errors) then Return result
    else
      '(error_code, error_message) <- extract_error_details K errors (content_str response) ;;
      if eq_str error_code "UNAUTHENTICATED" then
        Raise (InvalidLoginError (status response) error_message error_code)
      else
        demo <- contains "demo user" error_message ;;
        if eq_str error_code "INTERNAL_SERVER_ERROR" && demo then
          Raise (NotForDemoUserError (status response) error_message error_code)
        else raise_by_status py_repr K response errors
  else raise_by_status py_repr K response errors.
Proof.
  intros Hct Hjson. unfold extract_response_data. rewrite Hct, Hjson. reflexivity.
Qed.

Lemma extract_response_data_not_ok (response : ClientResponse) (result : dict) :
  content_type response = "application/json" ->
  json response = Decoded (JObj result) ->
  status response <> 200 ->
  extract_response_data py_repr K response =
  raise_by_status py_repr K response (dict_get result "errors" (JArr [])).
Proof.
  intros Hct Hjson Hst. rewrite (extract_response_data_decoded _ _ Hct Hjson). cbv zeta.
  destruct (Z.eqb_spec (status response) HTTPStatus_OK) as [E|_]; [contradiction | reflexivity].
Qed.

Lemma raise_by_status_retriable (response : ClientResponse) (errors code message : value) :
  In (status response) (HTTP_CODES_RETRIABLE K) ->
  extract_error_details K errors (content_str response) = Return (code, message) ->
  raise_by_status py_repr K response errors =
  Raise (RetryableHttpExceptionError (status response) message code).
Proof.
  intros Hin Hex. unfold raise_by_status.
  rewrite (proj2 (in_codes_In _ _) Hin), Hex. reflexivity.
Qed.

Lemma raise_by_status_fatal (response : ClientResponse) (errors code message : value) :
  ~ In (status response) (HTTP_CODES_RETRIABLE K) ->
  In (status response) (HTTP_CODES_FATAL K) ->
  extract_error_details K errors "request failed" = Return (code, message) ->
  raise_by_status py_repr K response errors =
  if eq_str code (API_ERR_CODE_UNAUTH K)
  then Raise (InvalidLoginError (status response) message code)
  else Raise (FatalHttpExceptionError (status response) message code).
Proof.
  intros Hnr Hf Hex. unfold raise_by_status.
  rewrite (not_in_codes _ _ Hnr), (proj2 (in_codes_In _ _) Hf), Hex. reflexivity.
Qed.

Lemma raise_by_status_unhandled (response : ClientResponse) (errors code message : value) :
  ~ In (status response) (HTTP_CODES_RETRIABLE K) ->
  ~ In (status response) (HTTP_CODES_FATAL K) ->
  extract_error_details K errors "N/A" = Return (code, message) ->
  raise_by_status py_repr K response errors =
  Raise (FatalHttpExceptionError (status response)
           (JStr ("Unhandled error: " ++ py_str py_repr message)) code).
Proof.
  intros Hnr Hnf Hex. unfold raise_by_status.
  rewrite (not_in_codes _ _ Hnr), (not_in_codes _ _ Hnf), Hex. reflexivity.
Qed.

(** The extraction raises nothing but built-in errors. *)
Lemma extract_error_details_raises (errors : value) (d : string) (e : exn) :
  extract_error_details K errors d = Raise e -> exists b, e = Builtin b.
Proof.
  unfold extract_error_details. destruct (negb (truthy errors)); [discriminate|].
  destruct errors as [| | |s|items|fields]; cbn [getitem0 bind];
    try (intros [= <-]; eauto; fail).
  - destruct s; cbn [bind get]; intros [= <-]; eauto.
  - destruct items as [|x rest]; cbn [bind]; [intros [= <-]; eauto|].
    destruct x; cbn [get bind]; try (intros [= <-]; eauto; fail).
    match goal with
    | |- context [dict_get ?f "extensions" ?v] => destruct (dict_get f "extensions" v)
    end; cbn [get bind]; intros [= <-]; eauto.
Qed.

(** Every exit of lines 89-107 is a raise; what is raised carries the
    status of the response and is never the demo-user failure. *)
Lemma raise_by_status_exits (response : ClientResponse) (errors : value) :
  exists e, raise_by_status py_repr K response errors = Raise e /\
    match e with
    | RetryableHttpExceptionError s _ _
    | InvalidLoginError s _ _
    | FatalHttpExceptionError s _ _ => s = status response
    | NotForDemoUserError _ _ _ => False
    | Builtin _ => True
    end.
Proof.
  unfold raise_by_status.
  destruct (in_codes (status response) (HTTP_CODES_RETRIABLE K));
    [|destruct (in_codes (status response) (HTTP_CODES_FATAL K))].
  all: match goal with
       | |- context [extract_error_details K ?er ?d] =>
           destruct (extract_error_details K er d) as [[code message]|e] eqn:Hex
       end; cbn [bind].
  all: try (destruct (eq_str code (API_ERR_CODE_UNAUTH K))).
  all: try (eexists; split; [reflexivity | reflexivity]).
  all: destruct (extract_error_details_raises _ _ _ Hex) as [b ->];
       eexists; split; [reflexivity | exact I].
Qed.

(** ** The claims *)

(** C4.  On every list of error entries and every default message the
    extractor returns, never raises: for the empty list the unknown code
    and the default message; otherwise the first entry's extension code if
    it has one, else the unknown code, and the first entry's message if it
    has one, else the default message.  Entries after the first, whatever
    they are, leave the outcome unchanged.  The entries are typed as the
    function's annotations have them. *)
Theorem extract_error_details_first_entry (errors : list value) (default_message : string) :
  forallb dict_entry errors = true ->
  extract_error_details K (JArr errors) default_message =
    Return (match errors with
            | [] => (JStr (API_ERR_CODE_UNKNOWN K), JStr default_message)
            | entry :: _ => first_entry_details K entry default_message
            end)
  /\ (forall entry later later',
        extract_error_details K (JArr (entry :: later)) default_message =
        extract_error_details K (JArr (entry :: later')) default_message).
Proof.
  intros Hwf. split.
  - destruct errors as [|entry later].
    + apply extract_error_details_nil.
    + apply extract_error_details_dict_entry.
      simpl in Hwf. now apply andb_true_iff in Hwf as [He _].
  - intros entry later later'. now rewrite !extract_error_details_head.
Qed.

(** C5.  A response with status 200 and content type application/json
    whose decoded mapping has no [errors] key, or an empty [errors] array,
    is returned whole. *)
Theorem no_errors_on_ok_is_success (response : ClientResponse) (result : dict) :
  status response = 200 ->
  content_type response = "application/json" ->
  json response = Decoded (JObj result) ->
  lookup "errors" result = None \/ lookup "errors" result = Some (JArr []) ->
  extract_response_data py_repr K response = Return result.
Proof.
  intros Hst Hct Hjson Herr.
  rewrite (extract_response_data_decoded _ _ Hct Hjson). cbv zeta.
  rewrite Hst. change (200 =? HTTPStatus_OK) with true. cbv iota.
  unfold dict_get. now destruct Herr as [-> | ->].
Qed.

(** C6.  A response with status 200 and content type application/json
    whose [errors] array is not empty and whose first entry carries the
    extension code UNAUTHENTICATED raises InvalidLoginError with status
    200, that entry's message (the stringified content where the entry has
    none) and the code UNAUTHENTICATED, whatever the message is. *)
Theorem unauthenticated_on_ok_is_invalid_login
    (response : ClientResponse) (result : dict) (entry : value) (later : list value) :
  status response = 200 ->
  content_type response = "application/json" ->
  json response = Decoded (JObj result) ->
  lookup "errors" result = Some (JArr (entry :: later)) ->
  entry_code entry = Some (JStr "UNAUTHENTICATED") ->
  extract_response_data py_repr K response =
  Raise (InvalidLoginError 200
           (or_default (entry_message entry) (JStr (content_str response)))
           (JStr "UNAUTHENTICATED")).
Proof.
  intros Hst Hct Hjson Herr Hcode.
  rewrite (extract_response_data_decoded _ _ Hct Hjson). cbv zeta.
  rewrite Hst. change (200 =? HTTPStatus_OK) with true. cbv iota.
  unfold dict_get at 1 2. rewrite Herr. cbn [truthy negb].
  rewrite extract_error_details_head.
  destruct entry as [| | | | |fields]; try discriminate.
  unfold entry_code in Hcode. cbn [get bind]. unfold dict_get at 1.
  destruct (lookup "extensions" fields) as [ext|]; [|discriminate].
  destruct ext as [| | | | |ext]; try discriminate.
  cbn [get bind]. unfold dict_get, entry_message, or_default. rewrite Hcode.
  cbn [eq_str]. rewrite String.eqb_refl. reflexivity.
Qed.


(** C10.  Whenever the handler raises one of its four failures, the status
    the failure carries is the status of the response it was given. *)
Theorem failure_carries_response_status (response : ClientResponse) (e : exn) (s : Z) :
  extract_response_data py_repr K response = Raise e ->
  exn_status e = Some s ->
  s = status response.
Proof.
  assert (Htail : forall errors,
    raise_by_status py_repr K response errors = Raise e -> exn_status e = Some s ->
    s = status response).
  { intros errors Hr Hs. destruct (raise_by_status_exits response errors) as [e' [He' Hk]].
    rewrite He' in Hr. injection Hr as ->. destruct e; simpl in Hs; try congruence.
    contradiction. }
  unfold extract_response_data.
  destruct (negb (content_type response =? "application/json")%string).
  { intros [= <-] [= <-]. reflexivity. }
  destruct (json response) as [decoded|err|b].
  - destruct decoded as [| | | | |result]; try (intros [= <-] [= <-]; reflexivity).
    cbv zeta. destruct (status response =? HTTPStatus_OK); [|apply Htail].
    destruct (negb (truthy _)); [discriminate|].
    destruct (extract_error_details K _ _) as [[code message]|e'] eqn:Hex; cbn [bind].
    + destruct (eq_str code "UNAUTHENTICATED"); [intros [= <-] [= <-]; reflexivity|].
      destruct (contains "demo user" message) as [demo|e''] eqn:Hc; cbn [bind].
      * destruct (eq_str code "INTERNAL_SERVER_ERROR" && demo);
          [intros [= <-] [= <-]; reflexivity | apply Htail].
      * destruct message; simpl in Hc; try discriminate;
          injection Hc as <-; intros [= <-]; discriminate.
    + destruct (extract_error_details_raises _ _ _ Hex) as [b ->].
      intros [= <-]. discriminate.
  - intros [= <-] [= <-]. reflexivity.
  - intros [= <-]. discriminate.
Qed.

(** C1, as the handler has it.  With 401 in the fatal set and not in the
    retriable one, and the unknown sentinel different from the
    unauthorized one, the response with status 401, content type
    application/json and body [{}] raises FatalHttpExceptionError with
    status 401, message "request failed" and the unknown code: nothing in
    the body names the unauthorized code, and the status does not stand in
    for it. *)
Theorem status_401_empty_body_is_fatal :
  In 401 (HTTP_CODES_FATAL K) ->
  ~ In 401 (HTTP_CODES_RETRIABLE K) ->
  API_ERR_CODE_UNKNOWN K <> API_ERR_CODE_UNAUTH K ->
  extract_response_data py_repr K resp_401_empty =
  Raise (FatalHttpExceptionError 401 (JStr "request failed") (JStr (API_ERR_CODE_UNKNOWN K))).
Proof.
  intros Hf Hnr Hne.
  rewrite (extract_response_data_not_ok resp_401_empty [] eq_refl eq_refl)
    by (simpl; lia).
  change (dict_get [] "errors" (JArr [])) with (JArr []).
  rewrite (raise_by_status_fatal resp_401_empty _ _ _ Hnr Hf (extract_error_details_nil _)).
  rewrite eq_str_false; [reflexivity | congruence].
Qed.

(** C2, as the handler has it.  Once the response has passed the gates
    (content type application/json, a body that decodes to a mapping whose
    [errors] are a list of entries), a status other than 200 that is in
    the retriable set raises RetryableHttpExceptionError with the details
    extracted under the stringified content as default message, whatever
    the extracted code is and whether or not the status is in the fatal
    set as well. *)
Theorem retriable_status_is_retryable (response : ClientResponse) (result : dict) :
  content_type response = "application/json" ->
  json response = Decoded (JObj result) ->
  dict_list (dict_get result "errors" (JArr [])) = true ->
  status response <> 200 ->
  In (status response) (HTTP_CODES_RETRIABLE K) ->
  exists code message,
    extract_error_details K (dict_get result "errors" (JArr [])) (content_str response)
      = Return (code, message) /\
    extract_response_data py_repr K response =
    Raise (RetryableHttpExceptionError (status response) message code).
Proof.
  intros Hct Hjson Hwf Hst Hin.
  destruct (extract_error_details_returns_dict _ (content_str response) Hwf)
    as [code [message Hex]].
  exists code, message. split; [assumption|].
  rewrite (extract_response_data_not_ok _ _ Hct Hjson Hst).
  now apply raise_by_status_retriable.
Qed.

(** C3, as the handler has it.  Once the response has passed the gates, a
    status other than 200 that is in the fatal set and not in the
    retriable one has its error details extracted with default message
    "request failed"; an extracted code equal to the unauthorized sentinel
    raises InvalidLoginError, any other raises FatalHttpExceptionError. *)
Theorem fatal_status_is_invalid_login_or_fatal (response : ClientResponse) (result : dict) :
  content_type response = "application/json" ->
  json response = Decoded (JObj result) ->
  dict_list (dict_get result "errors" (JArr [])) = true ->
  status response <> 200 ->
  ~ In (status response) (HTTP_CODES_RETRIABLE K) ->
  In (status response) (HTTP_CODES_FATAL K) ->
  exists code message,
    extract_error_details K (dict_get result "errors" (JArr [])) "request failed"
      = Return (code, message) /\
    (code = JStr (API_ERR_CODE_UNAUTH K) ->
     extract_response_data py_repr K response =
     Raise (InvalidLoginError (status response) message code)) /\
    (code <> JStr (API_ERR_CODE_UNAUTH K) ->
     extract_response_data py_repr K response =
     Raise (FatalHttpExceptionError (status response) message code)).
Proof.
  intros Hct Hjson Hwf Hst Hnr Hf.
  destruct (extract_error_details_returns_dict _ "request failed" Hwf)
    as [code [message Hex]].
  exists code, message. split; [assumption|].
  rewrite (extract_response_data_not_ok _ _ Hct Hjson Hst).
  rewrite (raise_by_status_fatal _ _ _ _ Hnr Hf Hex).
  split; intros Hc.
  - now rewrite (proj2 (eq_str_true _ _) Hc).
  - now rewrite (eq_str_false _ _ Hc).
Qed.

(** C7, as the handler has it.  For a response with status 200 and content
    type application/json whose first error entry carries the extension
    code INTERNAL_SERVER_ERROR and whose extracted message is text: the
    handler raises NotForDemoUserError when that text contains "demo user",
    letter case included; when it does not, the response goes on to the
    branches on the status, none of which raises NotForDemoUserError. *)
Theorem demo_user_on_ok
    (response : ClientResponse) (result : dict) (entry : value) (later : list value)
    (text : string) :
  status response = 200 ->
  content_type response = "application/json" ->
  json response = Decoded (JObj result) ->
  lookup "errors" result = Some (JArr (entry :: later)) ->
  entry_code entry = Some (JStr "INTERNAL_SERVER_ERROR") ->
  or_default (entry_message entry) (JStr (content_str response)) = JStr text ->
  (Substring "demo user" text ->
   extract_response_data py_repr K response =
   Raise (NotForDemoUserError 200 (JStr text) (JStr "INTERNAL_SERVER_ERROR")))
  /\ (~ Substring "demo user" text ->
      extract_response_data py_repr K response =
      raise_by_status py_repr K response (JArr (entry :: later))
      /\ forall s m c,
           extract_response_data py_repr K response <> Raise (NotForDemoUserError s m c)).
Proof.
  intros Hst Hct Hjson Herr Hcode Hmsg.
  assert (Hex : extract_error_details K (JArr (entry :: later)) (content_str response)
                = Return (JStr "INTERNAL_SERVER_ERROR", JStr text)).
  { rewrite extract_error_details_head.
    destruct entry as [| | | | |fields]; try discriminate.
    unfold entry_code in Hcode. unfold entry_message, or_default in Hmsg.
    cbn [get bind]. unfold dict_get.
    destruct (lookup "extensions" fields) as [ext|]; [|discriminate].
    destruct ext as [| | | | |ext]; try discriminate.
    cbn [get bind]. unfold dict_get. now rewrite Hcode, Hmsg. }
  rewrite (extract_response_data_decoded _ _ Hct Hjson). cbv zeta.
  rewrite Hst. change (200 =? HTTPStatus_OK) with true. cbv iota.
  unfold dict_get. rewrite Herr. cbn [truthy negb]. rewrite Hex. cbn [bind contains].
  change (eq_str (JStr "INTERNAL_SERVER_ERROR") "UNAUTHENTICATED") with false.
  change (eq_str (JStr "INTERNAL_SERVER_ERROR") "INTERNAL_SERVER_ERROR") with true.
  cbv iota. cbn [andb]. split; intros Hsub.
  - now rewrite (proj2 (str_contains_Substring _ _) Hsub).
  - rewrite (proj2 (not_contains_not_Substring _ _) Hsub). split; [reflexivity|].
    intros s m c Heq.
    destruct (raise_by_status_exits response (JArr (entry :: later))) as [e [He Hk]].
    rewrite He in Heq. injection Heq as ->. exact Hk.
Qed.

Lemma raise_by_status_classified (response : ClientResponse) (errors : value) :
  error_list errors = true -> classified (raise_by_status py_repr K response errors).
Proof.
  intros Hwf. unfold raise_by_status.
  destruct (in_codes (status response) (HTTP_CODES_RETRIABLE K));
    [|destruct (in_codes (status response) (HTTP_CODES_FATAL K))].
  - destruct (extract_error_details_returns _ (content_str response) Hwf) as [c [t ->]].
    exact I.
  - destruct (extract_error_details_returns _ "request failed" Hwf) as [c [t ->]].
    cbn [bind]. now destruct (eq_str c (API_ERR_CODE_UNAUTH K)).
  - destruct (extract_error_details_returns _ "N/A" Hwf) as [c [t ->]].
    exact I.
Qed.

(** C9, as the handler has it.  Once the response has passed the gates, a
    status in neither the retriable nor the fatal set, and either other
    than 200 or a 200 whose first error is not taken by the two special
    cases, raises FatalHttpExceptionError whose message is "Unhandled
    error: " followed by the message extracted under the default "N/A",
    so "Unhandled error: N/A" for an empty or absent [errors] array.  And
    every well-formed response, the gates included, leaves the handler
    through the returned payload or one of the four failures. *)
Theorem unhandled_status_is_fatal :
  (forall (response : ClientResponse) (result : dict),
     let errors := dict_get result "errors" (JArr []) in
     content_type response = "application/json" ->
     json response = Decoded (JObj result) ->
     error_list errors = true ->
     ~ In (status response) (HTTP_CODES_RETRIABLE K) ->
     ~ In (status response) (HTTP_CODES_FATAL K) ->
     (status response <> 200 \/
      exists entry later,
        errors = JArr (entry :: later) /\
        ~ ok_path_catches
            (fst (first_entry_details K entry (content_str response)))
            (snd (first_entry_details K entry (content_str response)))) ->
     exists code text,
       extract_error_details K errors "N/A" = Return (code, JStr text) /\
       extract_response_data py_repr K response =
       Raise (FatalHttpExceptionError (status response)
                (JStr ("Unhandled error: " ++ text)) code) /\
       (errors = JArr [] -> code = JStr (API_ERR_CODE_UNKNOWN K) /\ text = "N/A"))
  /\ (forall response : ClientResponse,
        well_formed response -> classified (extract_response_data py_repr K response)).
Proof.
  split.
  - intros response result errors Hct Hjson Hwf Hnr Hnf Hpath.
    destruct (extract_error_details_returns _ "N/A" Hwf) as [code [text Hex]].
    exists code, text. split; [assumption|]. split.
    + assert (Htail : raise_by_status py_repr K response errors =
                      Raise (FatalHttpExceptionError (status response)
                               (JStr ("Unhandled error: " ++ text)) code)).
      { now rewrite (raise_by_status_unhandled _ _ _ _ Hnr Hnf Hex). }
      rewrite (extract_response_data_decoded _ _ Hct Hjson). cbv zeta. fold errors.
      destruct (Z.eqb_spec (status response) HTTPStatus_OK) as [Hok|Hno]; [|assumption].
      destruct Hpath as [Hne | [entry [later [Hent Hnot]]]]; [contradiction|].
      rewrite Hent in *. cbn [truthy negb].
      simpl in Hwf. apply andb_true_iff in Hwf as [He _].
      rewrite (extract_error_details_entry _ _ _ He).
      destruct (entry_message_is_str entry (content_str response) He) as [t Ht].
      unfold first_entry_details in *. cbn [fst snd] in Hnot. rewrite Ht in *.
      cbn [bind contains].
      destruct (eq_str _ "UNAUTHENTICATED") eqn:E1.
      { apply eq_str_true in E1. exfalso. apply Hnot. now left. }
      destruct (eq_str _ "INTERNAL_SERVER_ERROR") eqn:E2; cbn [andb]; [|assumption].
      destruct (str_contains "demo user" t) eqn:E3; [|assumption].
      apply eq_str_true in E2. apply str_contains_Substring in E3.
      exfalso. apply Hnot. right. split; [assumption|]. now exists t.
    + intros Hempty. rewrite Hempty, extract_error_details_nil in Hex.
      now injection Hex as <- <-.
  - intros response Hwf. unfold well_formed in Hwf. unfold extract_response_data.
    destruct (negb (content_type response =? "application/json")%string); [exact I|].
    destruct (json response) as [decoded|err|b]; [|exact I|contradiction].
    destruct decoded as [| | | | |result]; try exact I.
    cbv zeta.
    destruct (status response =? HTTPStatus_OK);
      [|now apply raise_by_status_classified].
    destruct (negb (truthy _)); [exact I|].
    destruct (extract_error_details_returns _ (content_str response) Hwf) as [c [t ->]].
    cbn [bind contains].
    destruct (eq_str c "UNAUTHENTICATED"); [exact I|].
    destruct (eq_str c "INTERNAL_SERVER_ERROR" && str_contains "demo user" t); [exact I|].
    now apply raise_by_status_classified.
Qed.

End Properties.

(** ** The theorems at concrete responses *)

Lemma not_in_example_retriable (s : Z) :
  in_codes s (HTTP_CODES_RETRIABLE const_example) = false ->
  ~ In s (HTTP_CODES_RETRIABLE const_example).
Proof. intros H Hin. apply in_codes_In in Hin. congruence. Defined.

Lemma not_in_example_fatal (s : Z) :
  in_codes s (HTTP_CODES_FATAL const_example) = false ->
  ~ In s (HTTP_CODES_FATAL const_example).
Proof. intros H Hin. apply in_codes_In in Hin. congruence. Defined.

Lemma extract_error_details_first_entry_witness :
  extract_error_details const_example
    (JArr [JObj [("message", JStr "rate limited")]; error_with "no auth" "UNAUTHENTICATED"])
    "N/A"
  = Return (JStr "UNKNOWN", JStr "rate limited").
Proof.
  exact (proj1 (extract_error_details_first_entry const_example
                  [JObj [("message", JStr "rate limited")];
                   error_with "no auth" "UNAUTHENTICATED"]
                  "N/A" eq_refl)).
Defined.

Lemma no_errors_on_ok_is_success_witness :
  extract_response_data repr_ascii const_example resp_200_data
  = Return [("data", JObj [("x", JNum 1)])].
Proof.
  apply (no_errors_on_ok_is_success repr_ascii const_example resp_200_data).
  - reflexivity.
  - reflexivity.
  - reflexivity.
  - left. reflexivity.
Defined.

Lemma unauthenticated_on_ok_is_invalid_login_witness :
  extract_response_data repr_ascii const_example resp_200_unauthenticated
  = Raise (InvalidLoginError 200 (JStr "no auth") (JStr "UNAUTHENTICATED")).
Proof.
  apply (unauthenticated_on_ok_is_invalid_login repr_ascii const_example
           resp_200_unauthenticated
           [("errors", JArr [error_with "no auth" "UNAUTHENTICATED"])]
           (error_with "no auth" "UNAUTHENTICATED") []); reflexivity.
Defined.


Lemma failure_carries_response_status_witness :
  429 = status resp_429_rate_limited.
Proof.
  apply (failure_carries_response_status repr_ascii const_example resp_429_rate_limited
           (RetryableHttpExceptionError 429 (JStr "rate limited") (JStr "UNKNOWN")) 429);
    reflexivity.
Defined.

Lemma status_401_empty_body_is_fatal_witness :
  extract_response_data repr_ascii const_example resp_401_empty
  = Raise (FatalHttpExceptionError 401 (JStr "request failed") (JStr "UNKNOWN")).
Proof.
  apply (status_401_empty_body_is_fatal repr_ascii const_example).
  - simpl. right. left. reflexivity.
  - apply not_in_example_retriable. reflexivity.
  - discriminate.
Defined.

Lemma retriable_status_is_retryable_witness :
  exists code message,
    extract_error_details const_example
      (dict_get [("errors", JArr [JObj [("message", JStr "rate limited")]])] "errors" (JArr []))
      (content_str resp_429_rate_limited) = Return (code, message) /\
    extract_response_data repr_ascii const_example resp_429_rate_limited
    = Raise (RetryableHttpExceptionError (status resp_429_rate_limited) message code).
Proof.
  apply (retriable_status_is_retryable repr_ascii const_example resp_429_rate_limited
           [("errors", JArr [JObj [("message", JStr "rate limited")]])]).
  - reflexivity.
  - reflexivity.
  - reflexivity.
  - discriminate.
  - simpl. left. reflexivity.
Defined.

Lemma fatal_status_is_invalid_login_or_fatal_witness :
  exists code message,
    extract_error_details const_example
      (dict_get [("errors", JArr [error_with "bad token" "UNAUTHORIZED"])] "errors" (JArr []))
      "request failed" = Return (code, message) /\
    (code = JStr (API_ERR_CODE_UNAUTH const_example) ->
     extract_response_data repr_ascii const_example resp_401_unauthorized
     = Raise (InvalidLoginError (status resp_401_unauthorized) message code)) /\
    (code <> JStr (API_ERR_CODE_UNAUTH const_example) ->
     extract_response_data repr_ascii const_example resp_401_unauthorized
     = Raise (FatalHttpExceptionError (status resp_401_unauthorized) message code)).
Proof.
  apply (fatal_status_is_invalid_login_or_fatal repr_ascii const_example resp_401_unauthorized
           [("errors", JArr [error_with "bad token" "UNAUTHORIZED"])]).
  - reflexivity.
  - reflexivity.
  - reflexivity.
  - discriminate.
  - apply not_in_example_retriable. reflexivity.
  - simpl. right. left. reflexivity.
Defined.

Lemma demo_user_on_ok_witness :
  extract_response_data repr_ascii const_example resp_200_demo
  = Raise (NotForDemoUserError 200 (JStr "not allowed for demo user")
             (JStr "INTERNAL_SERVER_ERROR")).
Proof.
  apply (proj1 (demo_user_on_ok repr_ascii const_example resp_200_demo
                  [("errors", JArr [error_with "not allowed for demo user"
                                      "INTERNAL_SERVER_ERROR"])]
                  (error_with "not allowed for demo user" "INTERNAL_SERVER_ERROR") []
                  "not allowed for demo user"
                  eq_refl eq_refl eq_refl eq_refl eq_refl eq_refl)).
  exists "not allowed for ", "". reflexivity.
Defined.

Lemma unhandled_status_is_fatal_witness :
  (exists code text,
     extract_error_details const_example (JArr []) "N/A" = Return (code, JStr text) /\
     extract_response_data repr_ascii const_example resp_418_empty
     = Raise (FatalHttpExceptionError 418 (JStr ("Unhandled error: " ++ text)) code) /\
     (JArr [] = JArr [] -> code = JStr "UNKNOWN" /\ text = "N/A"))
  /\ classified (extract_response_data repr_ascii const_example resp_200_demo).
Proof.
  split.
  - apply (proj1 (unhandled_status_is_fatal repr_ascii const_example) resp_418_empty []).
    + reflexivity.
    + reflexivity.
    + reflexivity.
    + apply not_in_example_retriable. reflexivity.
    + apply not_in_example_fatal. reflexivity.
    + left. discriminate.
  - apply (proj2 (unhandled_status_is_fatal repr_ascii const_example) resp_200_demo).
    reflexivity.
Defined.

(** ** Where the claims, read as they are written, fail *)

(** C1 as stated: status 401 with body [{}] would raise InvalidLoginError
    carrying the unauthorized code.  The extraction finds no error entry
    and returns the unknown code, so the fatal branch raises the generic
    failure. *)
Lemma status_401_empty_body_not_invalid_login :
  In 401 (HTTP_CODES_FATAL const_example) /\
  extract_response_data repr_ascii const_example resp_401_empty
  = Raise (FatalHttpExceptionError 401 (JStr "request failed") (JStr "UNKNOWN")) /\
  extract_response_data repr_ascii const_example resp_401_empty
  <> Raise (InvalidLoginError 401 (JStr "request failed")
              (JStr (API_ERR_CODE_UNAUTH const_example))).
Proof.
  split; [simpl; auto | split; [reflexivity | discriminate]].
Qed.

(** C2 as stated: every response with a retriable status would raise
    RetryableHttpExceptionError.  A 502 that arrives as an HTML page stops
    at the content-type gate. *)
Lemma retriable_status_html_is_fatal :
  In (status resp_502_html) (HTTP_CODES_RETRIABLE const_example) /\
  extract_response_data repr_ascii const_example resp_502_html
  = Raise (FatalHttpExceptionError 502 (JStr "Unexpected content type: text/html")
             (JStr "UNKNOWN")) /\
  forall message code,
    extract_response_data repr_ascii const_example resp_502_html
    <> Raise (RetryableHttpExceptionError 502 message code).
Proof.
  split; [simpl; auto | split; [reflexivity | discriminate]].
Qed.

(** C3 as stated: every response with a fatal status (not 200, not
    retriable) whose extracted code is the unauthorized sentinel would
    raise InvalidLoginError.  Served under another media type, the same
    body stops at the content-type gate and nothing is extracted. *)
Lemma fatal_status_other_media_type_is_fatal :
  In (status resp_401_graphql_type) (HTTP_CODES_FATAL const_example) /\
  ~ In (status resp_401_graphql_type) (HTTP_CODES_RETRIABLE const_example) /\
  status resp_401_graphql_type <> 200 /\
  json resp_401_graphql_type
  = Decoded (JObj [("errors", JArr [error_with "bad token" "UNAUTHORIZED"])]) /\
  extract_error_details const_example (JArr [error_with "bad token" "UNAUTHORIZED"])
    "request failed"
  = Return (JStr (API_ERR_CODE_UNAUTH const_example), JStr "bad token") /\
  extract_response_data repr_ascii const_example resp_401_graphql_type
  = Raise (FatalHttpExceptionError 401
             (JStr "Unexpected content type: application/graphql-response+json")
             (JStr "UNKNOWN")) /\
  forall message code,
    extract_response_data repr_ascii const_example resp_401_graphql_type
    <> Raise (InvalidLoginError 401 message code).
Proof.
  split; [simpl; auto|].
  split; [apply not_in_example_retriable; reflexivity|].
  split; [discriminate|].
  split; [reflexivity|].
  split; [reflexivity|].
  split; [reflexivity | discriminate].
Qed.

(** C7 as stated: every response with status 200 whose first error entry
    carries INTERNAL_SERVER_ERROR would raise NotForDemoUserError exactly
    when the message contains "demo user".  Served under another media
    type, such a response stops at the content-type gate. *)
Lemma demo_user_other_media_type_is_fatal :
  status resp_200_demo_graphql_type = 200 /\
  json resp_200_demo_graphql_type
  = Decoded (JObj [("errors", JArr [error_with "not allowed for demo user"
                                      "INTERNAL_SERVER_ERROR"])]) /\
  entry_code (error_with "not allowed for demo user" "INTERNAL_SERVER_ERROR")
  = Some (JStr "INTERNAL_SERVER_ERROR") /\
  entry_message (error_with "not allowed for demo user" "INTERNAL_SERVER_ERROR")
  = Some (JStr "not allowed for demo user") /\
  Substring "demo user" "not allowed for demo user" /\
  extract_response_data repr_ascii const_example resp_200_demo_graphql_type
  = Raise (FatalHttpExceptionError 200
             (JStr "Unexpected content type: application/graphql-response+json")
             (JStr "UNKNOWN")) /\
  forall s message code,
    extract_response_data repr_ascii const_example resp_200_demo_graphql_type
    <> Raise (NotForDemoUserError s message code).
Proof.
  split; [reflexivity|].
  split; [reflexivity|].
  split; [reflexivity|].
  split; [reflexivity|].
  split; [now exists "not allowed for ", ""|].
  split; [reflexivity | discriminate].
Qed.


(** C9 as stated: every response whose status is in none of the three
    sets would raise FatalHttpExceptionError with a message that starts
    "Unhandled error: ".  A 418 that arrives as an HTML page stops at the
    content-type gate, whose message starts otherwise. *)
Lemma unhandled_status_html_has_gate_message :
  status resp_418_html <> 200 /\
  ~ In (status resp_418_html) (HTTP_CODES_RETRIABLE const_example) /\
  ~ In (status resp_418_html) (HTTP_CODES_FATAL const_example) /\
  extract_response_data repr_ascii const_example resp_418_html
  = Raise (FatalHttpExceptionError 418 (JStr "Unexpected content type: text/html")
             (JStr "UNKNOWN")) /\
  forall rest code,
    extract_response_data repr_ascii const_example resp_418_html
    <> Raise (FatalHttpExceptionError 418 (JStr ("Unhandled error: " ++ rest)) code).
Proof.
  split; [discriminate|].
  split; [apply not_in_example_retriable; reflexivity|].
  split; [apply not_in_example_fatal; reflexivity|].
  split; [reflexivity | discriminate].
Qed.

(** ** The scenarios of the specification that the handler meets *)

Example scenario_429_rate_limited :
  extract_response_data repr_ascii const_example resp_429_rate_limited
  = Raise (RetryableHttpExceptionError 429 (JStr "rate limited") (JStr "UNKNOWN")).
Proof. reflexivity. Qed.

Example scenario_418_empty :
  extract_response_data repr_ascii const_example resp_418_empty
  = Raise (FatalHttpExceptionError 418 (JStr "Unhandled error: N/A") (JStr "UNKNOWN")).
Proof. reflexivity. Qed.

(** ** Outside the data model

    The typing that the theorems above assume is needed: an entry whose
    [extensions] is [null], or a 200 response whose first message is
    [null], leaves through a built-in error. *)

Example extensions_null_raises :
  extract_error_details const_example (JArr [JObj [("extensions", JNull)]]) "N/A"
  = Raise (Builtin AttributeError).
Proof. reflexivity. Qed.

Example message_null_on_ok_raises :
  extract_response_data repr_ascii const_example
    (json_response 200 (JObj [("errors", JArr [JObj [("message", JNull)]])]))
  = Raise (Builtin TypeError).
Proof. reflexivity. Qed.

(** ** Further properties of the handler *)

Lemma in_codes_false_not_In (x : Z) (codes : list Z) :
  in_codes x codes = false -> ~ In x codes.
Proof. intros H Hin. apply in_codes_In in Hin. congruence. Qed.

Lemma extract_error_details_falsy (K : Const) (errors : value) (d : string) :
  truthy errors = false ->
  extract_error_details K errors d = Return (JStr (API_ERR_CODE_UNKNOWN K), JStr d).
Proof. intros H. unfold extract_error_details. now rewrite H. Qed.

Section Coverage.

Variable py_repr : value -> string.
Variable K : Const.

(** What each exit of lines 89-107 tells about the response. *)
Lemma raise_by_status_inv (response : ClientResponse) (errors : value) (e : exn) :
  raise_by_status py_repr K response errors = Raise e ->
  match e with
  | RetryableHttpExceptionError s m c =>
      s = status response /\ In (status response) (HTTP_CODES_RETRIABLE K) /\
      extract_error_details K errors (content_str response) = Return (c, m)
  | InvalidLoginError s m c =>
      s = status response /\ ~ In (status response) (HTTP_CODES_RETRIABLE K) /\
      In (status response) (HTTP_CODES_FATAL K) /\ c = JStr (API_ERR_CODE_UNAUTH K) /\
      extract_error_details K errors "request failed" = Return (c, m)
  | FatalHttpExceptionError s m c =>
      s = status response /\ ~ In (status response) (HTTP_CODES_RETRIABLE K) /\
      ((In (status response) (HTTP_CODES_FATAL K) /\ c <> JStr (API_ERR_CODE_UNAUTH K) /\
        extract_error_details K errors "request failed" = Return (c, m)) \/
       (~ In (status response) (HTTP_CODES_FATAL K) /\
        exists m0, extract_error_details K errors "N/A" = Return (c, m0) /\
                   m = JStr ("Unhandled error: " ++ py_str py_repr m0)))
  | NotForDemoUserError _ _ _ => False
  | Builtin b => exists d, extract_error_details K errors d = Raise (Builtin b)
  end.
Proof.
  unfold raise_by_status.
  destruct (in_codes (status response) (HTTP_CODES_RETRIABLE K)) eqn:Hr;
    [|destruct (in_codes (status response) (HTTP_CODES_FATAL K)) eqn:Hf].
  - apply in_codes_In in Hr.
    destruct (extract_error_details K errors (content_str response))
      as [[code message]|e'] eqn:Hex; cbn [bind]; intros [= <-].
    + auto.
    + destruct (extract_error_details_raises _ _ _ _ Hex) as [b ->]. eauto.
  - apply in_codes_false_not_In in Hr. apply in_codes_In in Hf.
    destruct (extract_error_details K errors "request failed")
      as [[code message]|e'] eqn:Hex; cbn [bind].
    + destruct (eq_str code (API_ERR_CODE_UNAUTH K)) eqn:Hc; intros [= <-].
      * apply eq_str_true in Hc. auto.
      * repeat split; try assumption. left. repeat split; try assumption.
        intros Heq. apply eq_str_true in Heq. congruence.
    + intros [= <-]. destruct (extract_error_details_raises _ _ _ _ Hex) as [b ->]. eauto.
  - apply in_codes_false_not_In in Hr. apply in_codes_false_not_In in Hf.
    destruct (extract_error_details K errors "N/A")
      as [[code message]|e'] eqn:Hex; cbn [bind]; intros [= <-].
    + repeat split; try assumption. right. split; [assumption|]. eauto.
    + destruct (extract_error_details_raises _ _ _ _ Hex) as [b ->]. eauto.
Qed.

Lemma contains_raises (needle : string) (v : value) (e : exn) :
  contains needle v = Raise e -> e = Builtin TypeError.
Proof. destruct v; simpl; congruence. Qed.

(** Where a raise of the handler comes from: a gate, the body accessor,
    one of the two special cases of a 200 response, a built-in error on
    that path, or lines 89-107. *)
Lemma extract_response_data_raise_inv (response : ClientResponse) (e : exn) :
  extract_response_data py_repr K response = Raise e ->
  (exists m, e = FatalHttpExceptionError (status response) (JStr m)
                   (JStr (API_ERR_CODE_UNKNOWN K)))
  \/ (exists b, e = Builtin b)
  \/ (content_type response = "application/json" /\
      exists body, json response = Decoded (JObj body) /\
        ((status response = 200 /\
          exists code message,
            extract_error_details K (dict_get body "errors" (JArr []))
              (content_str response) = Return (code, message) /\
            ((code = JStr "UNAUTHENTICATED" /\
              e = InvalidLoginError (status response) message code) \/
             (code = JStr "INTERNAL_SERVER_ERROR" /\
              contains "demo user" message = Return true /\
              e = NotForDemoUserError (status response) message code)))
         \/ raise_by_status py_repr K response (dict_get body "errors" (JArr []))
            = Raise e)).
Proof.
  unfold extract_response_data.
  destruct (String.eqb_spec (content_type response) "application/json") as [Hct|Hct];
    cbn [negb]; [|intros [= <-]; left; eauto].
  destruct (json response) as [decoded|err|b];
    [|intros [= <-]; left; eauto|intros [= <-]; right; left; eauto].
  destruct decoded as [| | | | |body]; try (intros [= <-]; left; eauto; fail).
  cbv zeta.
  destruct (Z.eqb_spec (status response) HTTPStatus_OK) as [Hst|Hst];
    [|intros H; right; right; split; [assumption|]; exists body; auto].
  destruct (negb (truthy _)); [discriminate|].
  destruct (extract_error_details K _ _) as [[code message]|e'] eqn:Hex; cbn [bind].
  - destruct (eq_str code "UNAUTHENTICATED") eqn:Hc1.
    + intros [= <-]. apply eq_str_true in Hc1.
      right; right. split; [assumption|]. exists body. split; [reflexivity|].
      left. split; [assumption|]. exists code, message. auto.
    + destruct (contains "demo user" message) as [demo|e''] eqn:Hc; cbn [bind].
      * destruct (eq_str code "INTERNAL_SERVER_ERROR") eqn:Hc2; cbn [andb];
          [destruct demo|].
        -- intros [= <-]. apply eq_str_true in Hc2.
           right; right. split; [assumption|]. exists body. split; [reflexivity|].
           left. split; [assumption|]. exists code, message. auto.
        -- intros H. right; right. split; [assumption|]. exists body. auto.
        -- intros H. right; right. split; [assumption|]. exists body. auto.
      * intros [= <-]. apply contains_raises in Hc. right; left. eauto.
  - intros [= <-]. destruct (extract_error_details_raises _ _ _ _ Hex) as [b ->].
    right; left. eauto.
Qed.

Lemma extract_response_data_return_inv (response : ClientResponse) (payload : dict) :
  extract_response_data py_repr K response = Return payload ->
  content_type response = "application/json" /\
  json response = Decoded (JObj payload) /\
  status response = 200 /\
  truthy (dict_get payload "errors" (JArr [])) = false.
Proof.
  assert (Htail : forall errors,
            raise_by_status py_repr K response errors <> Return payload).
  { intros errors H. destruct (raise_by_status_exits py_repr K response errors)
      as [e [He _]]. congruence. }
  unfold extract_response_data.
  destruct (String.eqb_spec (content_type response) "application/json") as [Hct|Hct];
    cbn [negb]; [|discriminate].
  destruct (json response) as [decoded|err|b]; try discriminate.
  destruct decoded as [| | | | |body]; try discriminate.
  cbv zeta.
  destruct (Z.eqb_spec (status response) HTTPStatus_OK) as [Hst|Hst];
    [|intros H; now destruct (Htail _ H)].
  destruct (truthy (dict_get body "errors" (JArr []))) eqn:Ht; cbn [negb].
  - destruct (extract_error_details K _ _) as [[code message]|e']; cbn [bind];
      [|discriminate].
    destruct (eq_str code "UNAUTHENTICATED"); [discriminate|].
    destruct (contains "demo user" message) as [demo|e'']; cbn [bind]; [|discriminate].
    destruct (eq_str code "INTERNAL_SERVER_ERROR" && demo); [discriminate|].
    intros H. now destruct (Htail _ H).
  - intros [= <-]. auto.
Qed.

(** X1.  The handler returns a payload exactly when the content type is
    application/json, the body decodes to a mapping, the status is 200 and
    the mapping's [errors] value is absent or falsy ([null], [false], [0],
    an empty string, list or mapping); the payload is then that mapping.
    It never returns for another status, nor when [errors] holds an entry. *)
Theorem returns_payload_iff (response : ClientResponse) (payload : dict) :
  extract_response_data py_repr K response = Return payload <->
  content_type response = "application/json" /\
  json response = Decoded (JObj payload) /\
  status response = 200 /\
  truthy (dict_get payload "errors" (JArr [])) = false.
Proof.
  split.
  - apply extract_response_data_return_inv.
  - intros [Hct [Hjson [Hst Ht]]].
    rewrite (extract_response_data_decoded _ _ _ _ Hct Hjson). cbv zeta.
    rewrite Hst, Ht. reflexivity.
Qed.

(** X2.  RetryableHttpExceptionError is raised only for a response that
    passed both gates and whose status is in the retriable set; it carries
    that status and the code and message extracted under the stringified
    content as default. *)
Theorem retryable_only_for_retriable_status
    (response : ClientResponse) (s : Z) (m c : value) :
  extract_response_data py_repr K response = Raise (RetryableHttpExceptionError s m c) ->
  s = status response /\
  In (status response) (HTTP_CODES_RETRIABLE K) /\
  content_type response = "application/json" /\
  exists body,
    json response = Decoded (JObj body) /\
    extract_error_details K (dict_get body "errors" (JArr [])) (content_str response)
    = Return (c, m).
Proof.
  intros H. apply extract_response_data_raise_inv in H.
  destruct H as [[m0 H] | [[b H] | [Hct [body [Hjson H]]]]]; try discriminate.
  destruct H as [[_ [code [message [_ [[_ H] | [_ [_ H]]]]]]] | H]; try discriminate.
  apply raise_by_status_inv in H. destruct H as [Hs [Hin Hex]].
  repeat split; try assumption. exists body. auto.
Qed.



(** X5.  The extractor returns exactly on two kinds of input: a falsy
    value, or a list whose first entry is a mapping with [extensions]
    absent or a mapping.  On every other value it raises. *)
Theorem extract_error_details_returns_iff (errors : value) (d : string) :
  (exists details, extract_error_details K errors d = Return details) <->
  truthy errors = false \/
  exists entry later, errors = JArr (entry :: later) /\ dict_entry entry = true.
Proof.
  split.
  - intros [details H]. destruct (truthy errors) eqn:Ht; [right | now left].
    unfold extract_error_details in H. rewrite Ht in H. cbn [negb] in H.
    destruct errors as [| | |s|items|fields]; try discriminate.
    + destruct s; discriminate.
    + destruct items as [|entry later]; [discriminate|].
      exists entry, later. split; [reflexivity|].
      cbn [getitem0 bind] in H.
      destruct entry as [| | | | |fields]; try discriminate.
      cbn [get bind] in H. unfold dict_entry, dict_get in *.
      destruct (lookup "extensions" fields) as [ext|]; [|reflexivity].
      now destruct ext.
  - intros [Ht | [entry [later [-> He]]]].
    + eexists. now apply extract_error_details_falsy.
    + eexists. now apply extract_error_details_dict_entry.
Qed.

(** X6.  What the extractor raises on a value outside its declared type:
    KeyError on a non-empty mapping, AttributeError on a non-empty string,
    TypeError on [True] or a number other than 0, AttributeError on a list
    whose first entry is not a mapping or whose first entry has
    [extensions] that are not a mapping (a [null] among them). *)
Theorem malformed_errors_raise (d : string) :
  (forall fields, fields <> [] ->
     extract_error_details K (JObj fields) d = Raise (Builtin KeyError))
  /\ (forall s, s <> "" ->
        extract_error_details K (JStr s) d = Raise (Builtin AttributeError))
  /\ (forall n, n <> 0 ->
        extract_error_details K (JNum n) d = Raise (Builtin TypeError))
  /\ extract_error_details K (JBool true) d = Raise (Builtin TypeError)
  /\ (forall entry later, is_dict entry = false ->
        extract_error_details K (JArr (entry :: later)) d = Raise (Builtin AttributeError))
  /\ (forall fields later ext,
        lookup "extensions" fields = Some ext -> is_dict ext = false ->
        extract_error_details K (JArr (JObj fields :: later)) d
        = Raise (Builtin AttributeError)).
Proof.
  repeat split.
  - intros fields H. destruct fields; [contradiction | reflexivity].
  - intros s H. destruct s; [contradiction | reflexivity].
  - intros n H. unfold extract_error_details. cbn [truthy].
    destruct (Z.eqb_spec n 0); [contradiction | reflexivity].
  - intros entry later H. rewrite extract_error_details_head.
    destruct entry; try reflexivity. discriminate.
  - intros fields later ext Hl He. rewrite extract_error_details_head.
    cbn [get bind]. unfold dict_get. rewrite Hl.
    destruct ext; try reflexivity. discriminate.
Qed.

(** X7.  The default message has no part in the extracted code nor in
    whether the extraction raises; and when the first entry has a message
    the default has no part in the outcome at all.  So the code tested on
    the 200 path is the code the later branches attach to their failure. *)
Theorem extracted_code_ignores_default (errors : value) (d1 d2 : string) :
  result_map fst (extract_error_details K errors d1)
  = result_map fst (extract_error_details K errors d2)
  /\ (forall entry later message,
        errors = JArr (entry :: later) ->
        entry_message entry = Some message ->
        extract_error_details K errors d1 = extract_error_details K errors d2).
Proof.
  split.
  - unfold extract_error_details. destruct (negb (truthy errors)); [reflexivity|].
    destruct (getitem0 errors) as [entry|e]; cbn [bind]; [|reflexivity].
    destruct (get entry "extensions" (JObj [])) as [ext|e]; cbn [bind]; [|reflexivity].
    destruct (get ext "code" _) as [code|e]; cbn [bind]; [|reflexivity].
    destruct entry; cbn [get bind result_map]; reflexivity.
  - intros entry later message -> Hm. rewrite !extract_error_details_head.
    destruct entry as [| | | | |fields]; try discriminate.
    cbn [entry_message] in Hm. cbn [get bind]. unfold dict_get. now rewrite Hm.
Qed.

(** X8.  A response that passed both gates with a status other than 200
    and no error entries ([errors] absent or falsy) raises, with the
    unknown code throughout: RetryableHttpExceptionError with the
    stringified content as message for a retriable status; for a fatal
    status FatalHttpExceptionError with "request failed", or
    InvalidLoginError with it should the unknown and the unauthorized
    sentinel be one string; FatalHttpExceptionError with
    "Unhandled error: N/A" for any other status. *)
Theorem not_ok_without_errors (response : ClientResponse) (body : dict) :
  content_type response = "application/json" ->
  json response = Decoded (JObj body) ->
  status response <> 200 ->
  truthy (dict_get body "errors" (JArr [])) = false ->
  (In (status response) (HTTP_CODES_RETRIABLE K) ->
   extract_response_data py_repr K response =
   Raise (RetryableHttpExceptionError (status response) (JStr (content_str response))
            (JStr (API_ERR_CODE_UNKNOWN K))))
  /\ (~ In (status response) (HTTP_CODES_RETRIABLE K) ->
      In (status response) (HTTP_CODES_FATAL K) ->
      API_ERR_CODE_UNKNOWN K <> API_ERR_CODE_UNAUTH K ->
      extract_response_data py_repr K response =
      Raise (FatalHttpExceptionError (status response) (JStr "request failed")
               (JStr (API_ERR_CODE_UNKNOWN K))))
  /\ (~ In (status response) (HTTP_CODES_RETRIABLE K) ->
      In (status response) (HTTP_CODES_FATAL K) ->
      API_ERR_CODE_UNKNOWN K = API_ERR_CODE_UNAUTH K ->
      extract_response_data py_repr K response =
      Raise (InvalidLoginError (status response) (JStr "request failed")
               (JStr (API_ERR_CODE_UNKNOWN K))))
  /\ (~ In (status response) (HTTP_CODES_RETRIABLE K) ->
      ~ In (status response) (HTTP_CODES_FATAL K) ->
      extract_response_data py_repr K response =
      Raise (FatalHttpExceptionError (status response) (JStr "Unhandled error: N/A")
               (JStr (API_ERR_CODE_UNKNOWN K)))).
Proof.
  intros Hct Hjson Hst Ht.
  rewrite (extract_response_data_not_ok _ _ _ _ Hct Hjson Hst).
  repeat split.
  - intros Hin. apply raise_by_status_retriable; [assumption|].
    now apply extract_error_details_falsy.
  - intros Hnr Hf Hne.
    rewrite (raise_by_status_fatal _ _ _ _ _ _ Hnr Hf
               (extract_error_details_falsy K _ "request failed" Ht)).
    rewrite eq_str_false; [reflexivity | congruence].
  - intros Hnr Hf Heq.
    rewrite (raise_by_status_fatal _ _ _ _ _ _ Hnr Hf
               (extract_error_details_falsy K _ "request failed" Ht)).
    rewrite (proj2 (eq_str_true _ _)); [reflexivity | congruence].
  - intros Hnr Hnf.
    now rewrite (raise_by_status_unhandled _ _ _ _ _ _ Hnr Hnf
                   (extract_error_details_falsy K _ "N/A" Ht)).
Qed.

(** X9.  On the 200 path the test for the demo-user case joins its two
    halves with [&], so the search of the message runs whatever the code
    is: a first entry whose message is [null], a boolean or a number, and
    whose code is not UNAUTHENTICATED, leaves the handler through a
    TypeError, none of the four failures. *)
Theorem unsearchable_message_on_ok_raises
    (response : ClientResponse) (body : dict) (entry : value) (later : list value)
    (message : value) :
  status response = 200 ->
  content_type response = "application/json" ->
  json response = Decoded (JObj body) ->
  lookup "errors" body = Some (JArr (entry :: later)) ->
  dict_entry entry = true ->
  entry_message entry = Some message ->
  unsearchable message = true ->
  or_default (entry_code entry) (JStr (API_ERR_CODE_UNKNOWN K)) <> JStr "UNAUTHENTICATED" ->
  extract_response_data py_repr K response = Raise (Builtin TypeError).
Proof.
  intros Hst Hct Hjson Herr He Hm Hu Hcode.
  rewrite (extract_response_data_decoded _ _ _ _ Hct Hjson). cbv zeta.
  rewrite Hst. change (200 =? HTTPStatus_OK) with true. cbv iota.
  unfold dict_get. rewrite Herr. cbn [truthy negb].
  rewrite (extract_error_details_dict_entry _ _ _ _ He).
  unfold first_entry_details. rewrite Hm. cbn [or_default bind].
  rewrite (eq_str_false _ _ Hcode).
  destruct message; try discriminate; reflexivity.
Qed.

Lemma entry_code_is_str (entry : value) (d : string) :
  error_entry entry = true -> exists text, or_default (entry_code entry) (JStr d) = JStr text.
Proof.
  destruct entry as [| | | | |fields]; try discriminate. simpl.
  intros He. apply andb_true_iff in He as [_ Hext].
  destruct (lookup "extensions" fields) as [ext|]; simpl in *; [|eauto].
  destruct ext as [| | | | |ext]; try discriminate.
  destruct (lookup "code" ext) as [c|]; simpl in *; [|eauto].
  destruct c; try discriminate. eauto.
Qed.

Lemma extract_error_details_text (errors : value) (d : string) :
  error_list errors = true ->
  exists code text, extract_error_details K errors d = Return (JStr code, JStr text).
Proof.
  intros H. destruct (error_list_cases _ H) as [-> | [e [rest [-> He]]]].
  - eexists _, _. apply extract_error_details_nil.
  - rewrite (extract_error_details_entry _ _ _ _ He). unfold first_entry_details.
    destruct (entry_message_is_str e d He) as [text ->].
    destruct (entry_code_is_str e (API_ERR_CODE_UNKNOWN K) He) as [code ->]. eauto.
Qed.

(** X10.  Whatever the handler raises for a response whose error entries
    are those of the data model carries text for its message and text for
    its code: no failure reaches the caller with a [None] or a nested
    structure in either field. *)
Theorem failures_carry_text (response : ClientResponse) (e : exn) :
  well_formed response ->
  extract_response_data py_repr K response = Raise e ->
  exists message code, exn_text e = Some (message, code).
Proof.
  intros Hwf. unfold well_formed in Hwf. unfold extract_response_data.
  destruct (negb (content_type response =? "application/json")%string);
    [intros [= <-]; simpl; eauto|].
  destruct (json response) as [decoded|err|b];
    [|intros [= <-]; simpl; eauto|contradiction].
  destruct decoded as [| | | | |body]; try (intros [= <-]; simpl; eauto; fail).
  cbv zeta.
  assert (Htail : raise_by_status py_repr K response (dict_get body "errors" (JArr []))
                  = Raise e -> exists message code, exn_text e = Some (message, code)).
  { unfold raise_by_status.
    destruct (in_codes (status response) (HTTP_CODES_RETRIABLE K));
      [|destruct (in_codes (status response) (HTTP_CODES_FATAL K))].
    - destruct (extract_error_details_text _ (content_str response) Hwf) as [c [t ->]].
      cbn [bind]. intros [= <-]. simpl. eauto.
    - destruct (extract_error_details_text _ "request failed" Hwf) as [c [t ->]].
      cbn [bind]. destruct (eq_str _ _); intros [= <-]; simpl; eauto.
    - destruct (extract_error_details_text _ "N/A" Hwf) as [c [t ->]].
      cbn [bind py_str]. intros [= <-]. simpl. eauto. }
  destruct (status response =? HTTPStatus_OK); [|exact Htail].
  destruct (negb (truthy _)); [discriminate|].
  destruct (extract_error_details_text _ (content_str response) Hwf) as [c [t ->]].
  cbn [bind contains].
  destruct (eq_str _ "UNAUTHENTICATED"); [intros [= <-]; simpl; eauto|].
  destruct (eq_str _ "INTERNAL_SERVER_ERROR" && str_contains "demo user" t);
    [intros [= <-]; simpl; eauto | exact Htail].
Qed.

Lemma raise_by_status_first_entry
    (response : ClientResponse) (entry : value) (later later' : list value) :
  raise_by_status py_repr K response (JArr (entry :: later))
  = raise_by_status py_repr K response (JArr (entry :: later')).
Proof.
  unfold raise_by_status.
  now rewrite !(extract_error_details_head K entry later),
              !(extract_error_details_head K entry later').
Qed.

(** X11.  Of a body that holds error entries the handler reads the first
    entry and nothing else: two responses with the same status, content
    type and stringified content, whose bodies have the same first entry,
    raise the same failure, whatever the later entries and the other keys
    of the two bodies are. *)
Theorem outcome_reads_first_entry_only
    (response response' : ClientResponse) (body body' : dict)
    (entry : value) (later later' : list value) :
  status response' = status response ->
  content_type response' = content_type response ->
  content_str response' = content_str response ->
  json response = Decoded (JObj body) ->
  json response' = Decoded (JObj body') ->
  lookup "errors" body = Some (JArr (entry :: later)) ->
  lookup "errors" body' = Some (JArr (entry :: later')) ->
  exists e,
    extract_response_data py_repr K response = Raise e /\
    extract_response_data py_repr K response' = Raise e.
Proof.
  intros Hst Hct Hcs Hjson Hjson' Herr Herr'.
  assert (Hsame : extract_response_data py_repr K response'
                  = extract_response_data py_repr K response).
  { unfold extract_response_data.
    rewrite Hct, Hst, Hjson, Hjson'. cbv zeta. unfold dict_get.
    rewrite Herr, Herr', Hcs. cbn [truthy negb].
    rewrite !(extract_error_details_head K entry later),
            !(extract_error_details_head K entry later').
    assert (Htail : raise_by_status py_repr K response' (JArr (entry :: later'))
                    = raise_by_status py_repr K response (JArr (entry :: later))).
    { unfold raise_by_status. rewrite Hst, Hcs.
      now rewrite !(extract_error_details_head K entry later),
                  !(extract_error_details_head K entry later'). }
    now rewrite Htail. }
  rewrite Hsame.
  destruct (extract_response_data py_repr K response) as [payload|e] eqn:Hout.
  - apply extract_response_data_return_inv in Hout.
    destruct Hout as [_ [Hj [_ Ht]]]. rewrite Hjson in Hj. injection Hj as <-.
    unfold dict_get in Ht. rewrite Herr in Ht. discriminate.
  - eauto.
Qed.

(** X12.  FatalHttpExceptionError has five origins and no other: the
    content-type gate, a body that fails to decode, a body that decodes to
    something other than a mapping (these three with the unknown code and
    their own message), a status in the fatal set and not in the retriable
    one with an extracted code other than the unauthorized sentinel, and a
    status in neither set, whose message then starts "Unhandled error: ". *)
Theorem fatal_origins (response : ClientResponse) (s : Z) (m c : value) :
  extract_response_data py_repr K response = Raise (FatalHttpExceptionError s m c) ->
  s = status response /\
  ((content_type response <> "application/json" /\
    m = JStr ("Unexpected content type: " ++ content_type response) /\
    c = JStr (API_ERR_CODE_UNKNOWN K))
   \/ (content_type response = "application/json" /\
       exists err, json response = JSONDecodeError err /\
                   m = JStr ("Failed to parse response: " ++ err) /\
                   c = JStr (API_ERR_CODE_UNKNOWN K))
   \/ (content_type response = "application/json" /\
       exists decoded, json response = Decoded decoded /\ is_dict decoded = false /\
                       m = JStr ("Unexpected response: " ++ py_str py_repr decoded) /\
                       c = JStr (API_ERR_CODE_UNKNOWN K))
   \/ (content_type response = "application/json" /\
       In (status response) (HTTP_CODES_FATAL K) /\
       ~ In (status response) (HTTP_CODES_RETRIABLE K) /\
       c <> JStr (API_ERR_CODE_UNAUTH K))
   \/ (content_type response = "application/json" /\
       ~ In (status response) (HTTP_CODES_FATAL K) /\
       ~ In (status response) (HTTP_CODES_RETRIABLE K) /\
       exists extracted, m = JStr ("Unhandled error: " ++ py_str py_repr extracted))).
Proof.
  unfold extract_response_data.
  destruct (String.eqb_spec (content_type response) "application/json") as [Hct|Hct];
    cbn [negb]; [|intros [= <- <- <-]; split; [reflexivity | left; auto]].
  destruct (json response) as [decoded|err|b]; [| |discriminate].
  2:{ intros [= <- <- <-]. split; [reflexivity|]. right; left. eauto. }
  assert (Htail : forall errors,
            raise_by_status py_repr K response errors
            = Raise (FatalHttpExceptionError s m c) ->
            s = status response /\
            ((In (status response) (HTTP_CODES_FATAL K) /\
              ~ In (status response) (HTTP_CODES_RETRIABLE K) /\
              c <> JStr (API_ERR_CODE_UNAUTH K)) \/
             (~ In (status response) (HTTP_CODES_FATAL K) /\
              ~ In (status response) (HTTP_CODES_RETRIABLE K) /\
              exists extracted,
                m = JStr ("Unhandled error: " ++ py_str py_repr extracted)))).
  { intros errors H. apply raise_by_status_inv in H.
    destruct H as [Hs [Hnr [[Hf [Hc _]] | [Hnf [m0 [_ Hm]]]]]].
    - split; [assumption|]. left. auto.
    - split; [assumption|]. right. eauto. }
  assert (Hwrap : forall errors,
            raise_by_status py_repr K response errors
            = Raise (FatalHttpExceptionError s m c) ->
            s = status response /\
            ((content_type response <> "application/json" /\
              m = JStr ("Unexpected content type: " ++ content_type response) /\
              c = JStr (API_ERR_CODE_UNKNOWN K))
             \/ (content_type response = "application/json" /\
                 exists err, Decoded decoded = JSONDecodeError err /\
                             m = JStr ("Failed to parse response: " ++ err) /\
                             c = JStr (API_ERR_CODE_UNKNOWN K))
             \/ (content_type response = "application/json" /\
                 exists decoded0, Decoded decoded = Decoded decoded0 /\
                                 is_dict decoded0 = false /\
                                 m = JStr ("Unexpected response: " ++ py_str py_repr decoded0) /\
                                 c = JStr (API_ERR_CODE_UNKNOWN K))
             \/ (content_type response = "application/json" /\
                 In (status response) (HTTP_CODES_FATAL K) /\
                 ~ In (status response) (HTTP_CODES_RETRIABLE K) /\
                 c <> JStr (API_ERR_CODE_UNAUTH K))
             \/ (content_type response = "application/json" /\
                 ~ In (status response) (HTTP_CODES_FATAL K) /\
                 ~ In (status response) (HTTP_CODES_RETRIABLE K) /\
                 exists extracted,
                   m = JStr ("Unhandled error: " ++ py_str py_repr extracted)))).
  { intros errors H. apply Htail in H. destruct H as [Hs [H | H]].
    - split; [assumption|]. right; right; right; left. tauto.
    - split; [assumption|]. right; right; right; right. tauto. }
  destruct decoded as [| | | | |body];
    try (intros [= <- <- <-]; split; [reflexivity|]; right; right; left;
         split; [assumption|]; eexists; repeat split; reflexivity).
  cbv zeta.
  destruct (status response =? HTTPStatus_OK); [|apply Hwrap].
  destruct (negb (truthy _)); [discriminate|].
  destruct (extract_error_details K _ _) as [[code message]|e'] eqn:Hex; cbn [bind].
  - destruct (eq_str code "UNAUTHENTICATED"); [discriminate|].
    destruct (contains "demo user" message) as [demo|e''] eqn:Hc; cbn [bind].
    + destruct (eq_str code "INTERNAL_SERVER_ERROR" && demo); [discriminate | apply Hwrap].
    + apply contains_raises in Hc. subst. discriminate.
  - destruct (extract_error_details_raises _ _ _ _ Hex) as [b ->]. discriminate.
Qed.

End Coverage.

(** ** The further properties at concrete responses *)

Lemma returns_payload_iff_witness :
  extract_response_data repr_ascii const_example resp_200_errors_null
  = Return [("data", JNull); ("errors", JNull)].
Proof.
  apply (proj2 (returns_payload_iff repr_ascii const_example resp_200_errors_null
                  [("data", JNull); ("errors", JNull)])).
  repeat split.
Defined.

Lemma retryable_only_for_retriable_status_witness :
  429 = status resp_429_rate_limited /\
  In (status resp_429_rate_limited) (HTTP_CODES_RETRIABLE const_example) /\
  content_type resp_429_rate_limited = "application/json" /\
  exists body,
    json resp_429_rate_limited = Decoded (JObj body) /\
    extract_error_details const_example (dict_get body "errors" (JArr []))
      (content_str resp_429_rate_limited)
    = Return (JStr "UNKNOWN", JStr "rate limited").
Proof.
  exact (retryable_only_for_retriable_status repr_ascii const_example
           resp_429_rate_limited 429 (JStr "rate limited") (JStr "UNKNOWN") eq_refl).
Defined.



Lemma extract_error_details_returns_iff_witness :
  exists details,
    extract_error_details const_example (JArr [JObj [("message", JStr "rate limited")]]) "N/A"
    = Return details.
Proof.
  apply (proj2 (extract_error_details_returns_iff const_example
                  (JArr [JObj [("message", JStr "rate limited")]]) "N/A")).
  right. exists (JObj [("message", JStr "rate limited")]), []. split; reflexivity.
Defined.

Lemma malformed_errors_raise_witness :
  extract_error_details const_example (JObj [("message", JStr "boom")]) "N/A"
  = Raise (Builtin KeyError)
  /\ extract_error_details const_example (JStr "boom") "N/A"
     = Raise (Builtin AttributeError)
  /\ extract_error_details const_example (JArr [JObj [("extensions", JNull)]]) "N/A"
     = Raise (Builtin AttributeError).
Proof.
  split; [|split].
  - apply (proj1 (malformed_errors_raise const_example "N/A")). discriminate.
  - apply (proj1 (proj2 (malformed_errors_raise const_example "N/A"))). discriminate.
  - apply (proj2 (proj2 (proj2 (proj2 (proj2 (malformed_errors_raise const_example "N/A")))))
             [("extensions", JNull)] [] JNull); reflexivity.
Defined.

Lemma extracted_code_ignores_default_witness :
  extract_error_details const_example (JArr [error_with "bad token" "UNAUTHORIZED"])
    "request failed"
  = extract_error_details const_example (JArr [error_with "bad token" "UNAUTHORIZED"]) "N/A".
Proof.
  apply (proj2 (extracted_code_ignores_default const_example
                  (JArr [error_with "bad token" "UNAUTHORIZED"]) "request failed" "N/A")
           (error_with "bad token" "UNAUTHORIZED") [] (JStr "bad token")); reflexivity.
Defined.

Lemma not_ok_without_errors_witness :
  extract_response_data repr_ascii const_example resp_503_empty
  = Raise (RetryableHttpExceptionError 503 (JStr "<StreamReader>") (JStr "UNKNOWN"))
  /\ extract_response_data repr_ascii const_example resp_404_empty
     = Raise (FatalHttpExceptionError 404 (JStr "request failed") (JStr "UNKNOWN")).
Proof.
  split.
  - apply (proj1 (not_ok_without_errors repr_ascii const_example resp_503_empty []
                    eq_refl eq_refl ltac:(discriminate) eq_refl)).
    simpl. right. right. left. reflexivity.
  - apply (proj1 (proj2 (not_ok_without_errors repr_ascii const_example resp_404_empty []
                           eq_refl eq_refl ltac:(discriminate) eq_refl))).
    + apply not_in_example_retriable. reflexivity.
    + simpl. right. right. right. left. reflexivity.
    + discriminate.
Defined.

Lemma unsearchable_message_on_ok_raises_witness :
  extract_response_data repr_ascii const_example resp_200_message_null
  = Raise (Builtin TypeError).
Proof.
  apply (unsearchable_message_on_ok_raises repr_ascii const_example resp_200_message_null
           [("errors",
             JArr [JObj [("message", JNull);
                         ("extensions", JObj [("code", JStr "BAD_USER_INPUT")])]])]
           (JObj [("message", JNull); ("extensions", JObj [("code", JStr "BAD_USER_INPUT")])])
           [] JNull); try reflexivity.
  discriminate.
Defined.

Lemma failures_carry_text_witness :
  exists message code,
    exn_text (FatalHttpExceptionError 404 (JStr "request failed") (JStr "UNKNOWN"))
    = Some (message, code).
Proof.
  apply (failures_carry_text repr_ascii const_example resp_404_empty).
  - reflexivity.
  - reflexivity.
Defined.

Lemma outcome_reads_first_entry_only_witness :
  exists e,
    extract_response_data repr_ascii const_example resp_200_unauthenticated = Raise e /\
    extract_response_data repr_ascii const_example
      (json_response 200
         (JObj [("data", JNull);
                ("errors", JArr [error_with "no auth" "UNAUTHENTICATED";
                                 error_with "not allowed for demo user"
                                   "INTERNAL_SERVER_ERROR"])]))
    = Raise e.
Proof.
  apply (outcome_reads_first_entry_only repr_ascii const_example
           resp_200_unauthenticated
           (json_response 200
              (JObj [("data", JNull);
                     ("errors", JArr [error_with "no auth" "UNAUTHENTICATED";
                                      error_with "not allowed for demo user"
                                        "INTERNAL_SERVER_ERROR"])]))
           [("errors", JArr [error_with "no auth" "UNAUTHENTICATED"])]
           [("data", JNull);
            ("errors", JArr [error_with "no auth" "UNAUTHENTICATED";
                             error_with "not allowed for demo user"
                               "INTERNAL_SERVER_ERROR"])]
           (error_with "no auth" "UNAUTHENTICATED")
           []
           [error_with "not allowed for demo user" "INTERNAL_SERVER_ERROR"]);
    reflexivity.
Defined.

Lemma fatal_origins_witness :
  418 = status resp_418_empty /\
  ((content_type resp_418_empty <> "application/json" /\
    JStr "Unhandled error: N/A"
    = JStr ("Unexpected content type: " ++ content_type resp_418_empty) /\
    JStr "UNKNOWN" = JStr (API_ERR_CODE_UNKNOWN const_example))
   \/ (content_type resp_418_empty = "application/json" /\
       exists err, json resp_418_empty = JSONDecodeError err /\
                   JStr "Unhandled error: N/A" = JStr ("Failed to parse response: " ++ err) /\
                   JStr "UNKNOWN" = JStr (API_ERR_CODE_UNKNOWN const_example))
   \/ (content_type resp_418_empty = "application/json" /\
       exists decoded, json resp_418_empty = Decoded decoded /\ is_dict decoded = false /\
                       JStr "Unhandled error: N/A"
                       = JStr ("Unexpected response: " ++ py_str repr_ascii decoded) /\
                       JStr "UNKNOWN" = JStr (API_ERR_CODE_UNKNOWN const_example))
   \/ (content_type resp_418_empty = "application/json" /\
       In (status resp_418_empty) (HTTP_CODES_FATAL const_example) /\
       ~ In (status resp_418_empty) (HTTP_CODES_RETRIABLE const_example) /\
       JStr "UNKNOWN" <> JStr (API_ERR_CODE_UNAUTH const_example))
   \/ (content_type resp_418_empty = "application/json" /\
       ~ In (status resp_418_empty) (HTTP_CODES_FATAL const_example) /\
       ~ In (status resp_418_empty) (HTTP_CODES_RETRIABLE const_example) /\
       exists extracted,
         JStr "Unhandled error: N/A"
         = JStr ("Unhandled error: " ++ py_str repr_ascii extracted))).
Proof.
  exact (fatal_origins repr_ascii const_example resp_418_empty 418
           (JStr "Unhandled error: N/A") (JStr "UNKNOWN") eq_refl).
Defined.
